(** * Egy360 accounts: registration, login, profile and deletion flows

    A shallow embedding of the [accounts] application (models.py,
    serializers.py, views.py).  A model instance is a primary key with a
    dictionary of attributes, the table is a finite map from primary keys to
    rows, a serializer is its tuple of field names, and a view is a function
    from the table and the request to a response and the table afterwards. *)

From Stdlib Require Import ZArith String List Bool Lia DecimalString DecimalZ DecimalPos.
From stdpp Require Import base option list strings gmap.

Open Scope string_scope.
Open Scope Z_scope.

(** ** Values *)

(** What a model attribute holds. *)
Inductive Value :=
| VNull
| VBool (b : bool)
| VInt (n : Z)
| VStr (s : string).

(** What a request body holds under a key: null, a boolean, a text as it
    was sent, or an uploaded file by its name. *)
Inductive Raw :=
| RNull
| RBool (b : bool)
| RStr (s : string)
| RFile (name : string).

(** What a response body holds. *)
#[warnings="-register-all"]
Inductive JSON :=
| JNull
| JBool (b : bool)
| JInt (n : Z)
| JStr (s : string)
| JArr (items : list JSON)
| JObj (members : list (string * JSON)).

#[global] Instance Value_eq_dec : EqDecision Value.
Proof. solve_decision. Defined.

#[global] Instance Raw_eq_dec : EqDecision Raw.
Proof. solve_decision. Defined.

Record Response := { status_code : Z; data : JSON }.

Definition HTTP_200_OK : Z := 200.
Definition HTTP_201_CREATED : Z := 201.
Definition HTTP_204_NO_CONTENT : Z := 204.
Definition HTTP_400_BAD_REQUEST : Z := 400.
Definition HTTP_401_UNAUTHORIZED : Z := 401.
Definition HTTP_403_FORBIDDEN : Z := 403.
Definition HTTP_404_NOT_FOUND : Z := 404.
Definition HTTP_500_INTERNAL_SERVER_ERROR : Z := 500.

Definition json_of_value (v : Value) : JSON :=
  match v with
  | VNull => JNull
  | VBool b => JBool b
  | VInt n => JInt n
  | VStr s => JStr s
  end.

(** The keys of a response object, in order. *)
Definition json_keys (j : JSON) : list string :=
  match j with
  | JObj members => members.*1
  | _ => []
  end.

Definition json_get (key : string) (j : JSON) : option JSON :=
  match j with
  | JObj members => snd <$> List.find (λ kv, String.eqb kv.1 key) members
  | _ => None
  end.

(** Serializer errors: field name and messages, as [serializer.errors]. *)
Definition Errors := list (string * list string).

Definition errors_json (errors : Errors) : JSON :=
  JObj (map (λ e, (e.1, JArr (map JStr e.2))) errors).

(** ** The table and its rows *)

Abbreviation Store := (gmap Z (gmap string Value)).

(** A model instance in memory. *)
Record CustomUser := { pk : Z; attrs : gmap string Value }.

Definition getattr (user : CustomUser) (name : string) : Value :=
  if String.eqb name "id" then VInt (pk user)
  else default VNull (attrs user !! name).

Definition setattr (user : CustomUser) (name : string) (v : Value) : CustomUser :=
  {| pk := pk user; attrs := <[name := v]> (attrs user) |}.

(** Python truth of an attribute. *)
Definition truthy (v : Value) : bool :=
  match v with
  | VNull => false
  | VBool b => b
  | VInt n => negb (n =? 0)
  | VStr s => negb (String.eqb s "")
  end.

(** [Model.__eq__]: two instances are the same account when their primary
    keys agree. *)
Definition user_eqb (a b : CustomUser) : bool := pk a =? pk b.

(** [CustomUser.objects.get(id=k)]. *)
Definition objects_get (s : Store) (k : Z) : option CustomUser :=
  (λ row, {| pk := k; attrs := row |}) <$> s !! k.

(** [user.save()] and [user.delete()]. *)
Definition save (s : Store) (user : CustomUser) : Store :=
  <[pk user := attrs user]> s.

Definition delete_user (s : Store) (user : CustomUser) : Store :=
  delete (pk user) s.

(** The lookup of the authentication backend, by user name. *)
Definition has_username (username : string) (kr : Z * gmap string Value) : bool :=
  bool_decide (kr.2 !! "username" = Some (VStr username)).

Definition get_by_natural_key (s : Store) (username : string) : option CustomUser :=
  (λ kr, {| pk := kr.1; attrs := kr.2 |}) <$> List.find (has_username username) (map_to_list s).

(** ** models.py: [CustomUser] *)


Definition is_provider (user : CustomUser) : bool :=
  bool_decide (getattr user "user_type" = VStr "provider").

Definition is_staff (user : CustomUser) : bool := truthy (getattr user "is_staff").

Definition is_active (user : CustomUser) : bool := truthy (getattr user "is_active").

Definition is_admin_user (user : CustomUser) : bool :=
  bool_decide (getattr user "user_type" = VStr "admin") || is_staff user.

(** The field declarations of models.py, with the options the serializers
    read from them. *)
Inductive ModelField :=
| MCharField (max_length : nat) (choices : option (list string)) (blank null : bool)
| MTextField (max_length : nat) (blank null : bool)
| MURLField (blank null : bool)
| MDateField (blank null : bool)
| MImageField (blank null : bool)
| MBooleanField
| MDateTimeField.

Definition USER_TYPE_CHOICES : list string := ["tourist"; "provider"; "admin"].
Definition GENDER_CHOICES : list string := ["M"; "F"; "O"].
Definition LANGUAGE_CHOICES : list string := ["en"; "ar"; "fr"; "de"].

Definition CustomUser_fields : list (string * ModelField) :=
  [ ("user_type", MCharField 20 (Some USER_TYPE_CHOICES) false false);
    ("phone_number", MCharField 20 None true true);
    ("gender", MCharField 1 (Some GENDER_CHOICES) true true);
    ("date_of_birth", MDateField true true);
    ("nationality", MCharField 50 None true true);
    ("address", MCharField 255 None true true);
    ("city", MCharField 100 None true true);
    ("state", MCharField 100 None true true);
    ("postal_code", MCharField 20 None true true);
    ("country", MCharField 100 None true true);
    ("profile_picture", MImageField true true);
    ("bio", MTextField 500 true true);
    ("website", MURLField true true);
    ("is_verified", MBooleanField);
    ("is_phone_verified", MBooleanField);
    ("is_identity_verified", MBooleanField);
    ("business_name", MCharField 255 None true true);
    ("business_license", MCharField 255 None true true);
    ("is_licensed", MBooleanField);
    ("language_preference", MCharField 10 (Some LANGUAGE_CHOICES) false false);
    ("receive_notifications", MBooleanField);
    ("receive_sms", MBooleanField);
    ("created_at", MDateTimeField);
    ("updated_at", MDateTimeField);
    ("last_login_at", MDateTimeField) ].

(** The value a new row has in each column when nothing else is given: the
    [default=] of models.py, [None] for the nullable columns, and the
    defaults of the base user model for the columns it brings. *)
Definition field_defaults : list (string * Value) :=
  [ ("first_name", VStr ""); ("last_name", VStr ""); ("email", VStr "");
    ("is_staff", VBool false); ("is_active", VBool true);
    ("is_superuser", VBool false); ("last_login", VNull);
    ("user_type", VStr "tourist");
    ("phone_number", VNull); ("gender", VNull); ("date_of_birth", VNull);
    ("nationality", VNull); ("address", VNull); ("city", VNull);
    ("state", VNull); ("postal_code", VNull); ("country", VNull);
    ("profile_picture", VNull); ("bio", VNull); ("website", VNull);
    ("is_verified", VBool false); ("is_phone_verified", VBool false);
    ("is_identity_verified", VBool false);
    ("business_name", VNull); ("business_license", VNull);
    ("is_licensed", VBool false);
    ("language_preference", VStr "en");
    ("receive_notifications", VBool true); ("receive_sms", VBool false);
    ("last_login_at", VNull) ].

(** ** Serializer fields *)

(** The outcome of one field on one request: the key is left out of the
    validated data, or it is there with a value, or it is in the errors. *)
Inductive FieldResult :=
| Skip
| Valid (v : Value)
| Invalid (messages : list string).

(** ** What the application takes from outside

    The password hasher, the token issuer, the file storage, the parsers of
    the framework and the columns of the base user model are not code of
    this application.  They are an interface here; only the hasher and the
    reading of a number come with a law. *)
Class Framework := {
  (** [make_password] and [check_password] of the password hasher *)
  make_password : string → string;
  check_password_hash : string → string → bool;
  check_make_password : ∀ raw raw',
    check_password_hash raw (make_password raw') = true ↔ raw = raw';
  (** [RefreshToken.for_user(user)]: the refresh and the access token *)
  refresh_token : Z → string;
  access_token : Z → string;
  (** Python's [int()] on the text of a query parameter *)
  int_of_text : string → option Z;
  int_of_text_decimal : ∀ k,
    int_of_text (NilZero.string_of_int (Z.to_int k)) = Some k;
  (** the serializer fields made from the columns of the base user model
      ([username], [email], [first_name], [last_name]): whether the key must
      be there, and what the field makes of a value, given the table for
      the uniqueness validators *)
  base_required : string → bool;
  base_field : Store → string → Raw → FieldResult;
  (** format validators, the reading of a boolean from text *)
  url_valid : string → bool;
  date_valid : string → bool;
  image_valid : string → bool;
  bool_of_text : string → option bool;
  (** the name under which the storage keeps an upload, and its address *)
  storage_name : string → string;
  media_url : string → string;
  (** [normalize_username] (Unicode NFKC) and [normalize_email] (the domain
      in lower case) of the user manager *)
  normalize_username : string → string;
  normalize_email : string → string
}.

(** The decimal text of a primary key, as a client writes it in a URL. *)
Definition decimal (k : Z) : string := NilZero.string_of_int (Z.to_int k).

(** ** Text

    A text is the UTF-8 encoding of a Python [str], as a string literal of
    this file is read. *)

Definition bytes (codes : list nat) : string :=
  string_of_list_ascii (map Ascii.ascii_of_nat codes).

(** The characters Python's [str.isspace] accepts: U+0009 to U+000D, U+001C
    to U+0020, U+0085, U+00A0, U+1680, U+2000 to U+200A, U+2028, U+2029,
    U+202F, U+205F and U+3000, each by its encoding. *)
Definition whitespace : list string :=
  map bytes
    [ [9]; [10]; [11]; [12]; [13]; [28]; [29]; [30]; [31]; [32];
      [194; 133]; [194; 160]; [225; 154; 128];
      [226; 128; 128]; [226; 128; 129]; [226; 128; 130]; [226; 128; 131];
      [226; 128; 132]; [226; 128; 133]; [226; 128; 134]; [226; 128; 135];
      [226; 128; 136]; [226; 128; 137]; [226; 128; 138];
      [226; 128; 168]; [226; 128; 169]; [226; 128; 175];
      [226; 129; 159]; [227; 128; 128] ]%nat.

(** What is left of [s] behind the prefix [w], if [w] is a prefix. *)
Fixpoint drop_prefix (w s : string) : option string :=
  match w, s with
  | EmptyString, _ => Some s
  | String a w', String b s' => if Ascii.eqb a b then drop_prefix w' s' else None
  | String _ _, EmptyString => None
  end.

Definition drop_any (prefixes : list string) (s : string) : option string :=
  foldr (λ w found, match drop_prefix w s with Some rest => Some rest | None => found end)
        None prefixes.

(** The characters of [prefixes] are taken off the front of [s], at most
    [fuel] of them; the length of [s] is fuel enough. *)
Fixpoint lstrip_with (prefixes : list string) (fuel : nat) (s : string) : string :=
  match fuel with
  | O => s
  | S fuel' =>
      match drop_any prefixes s with
      | Some rest => lstrip_with prefixes fuel' rest
      | None => s
      end
  end.

Definition lstrip (s : string) : string :=
  lstrip_with whitespace (String.length s) s.

Definition rstrip (s : string) : string :=
  String.rev (lstrip_with (map String.rev whitespace) (String.length s) (String.rev s)).

(** Python's [str.strip()]. *)
Definition strip (s : string) : string := rstrip (lstrip s).

(** Python's [len()]: the characters of the text, which are the bytes that
    do not continue a character. *)
Definition is_continuation (c : Ascii.ascii) : bool :=
  let n := Ascii.nat_of_ascii c in (128 <=? n)%nat && (n <? 192)%nat.

Fixpoint len (s : string) : nat :=
  match s with
  | EmptyString => O
  | String c rest => if is_continuation c then len rest else S (len rest)
  end.

Definition text_of (v : Value) : string :=
  match v with
  | VStr s => s
  | _ => ""
  end.

(** [AbstractUser.get_full_name]: first and last name with a space between,
    stripped. *)
Definition get_full_name (user : CustomUser) : string :=
  strip (text_of (getattr user "first_name") +:+ " " +:+ text_of (getattr user "last_name")).

(** [user.check_password(raw)] and [user.set_password(raw)]. *)
Definition check_password `{Framework} (user : CustomUser) (raw : string) : bool :=
  match getattr user "password" with
  | VStr encoded => check_password_hash raw encoded
  | _ => false
  end.

Definition set_password `{Framework} (user : CustomUser) (raw : string) : CustomUser :=
  setattr user "password" (VStr (make_password raw)).

(** *** rest_framework fields *)

(** A key that is not in the request: a partial update leaves the field out,
    a required field reports it, any other field is left out. *)
Definition run_field (partial required : bool) (to_internal : Raw → FieldResult)
    (raw : option Raw) : FieldResult :=
  match raw with
  | None =>
      if partial then Skip
      else if required then Invalid ["This field is required."]
      else Skip
  | Some r => to_internal r
  end.

Definition within (max_length : option nat) (s : string) : bool :=
  match max_length with
  | Some n => (len s <=? n)%nat
  | None => true
  end.

(** The messages that quote the limit or the input. *)
Definition too_long (max_length : option nat) : string :=
  "Ensure this field has no more than " +:+
  match max_length with
  | Some n => NilZero.string_of_uint (Nat.to_uint n)
  | None => ""
  end +:+ " characters.".

Definition not_a_choice (input : string) : string :=
  bytes [34%nat] +:+ input +:+ bytes [34%nat] +:+ " is not a valid choice.".

(** Python's [str()] of a value that is sent where a choice is expected. *)
Definition str_of_raw (r : Raw) : string :=
  match r with
  | RNull => "None"
  | RBool true => "True"
  | RBool false => "False"
  | RStr s => s
  | RFile name => name
  end.

Definition wrong_date : string :=
  "Date has wrong format. Use one of these formats instead: YYYY-MM-DD.".

Definition char_field (max_length : option nat) (allow_blank allow_null : bool)
    (r : Raw) : FieldResult :=
  match r with
  | RNull => if allow_null then Valid VNull else Invalid ["This field may not be null."]
  | RStr s =>
      (* trim_whitespace: white space alone is blank, and the validators
         see the text without the white space around it *)
      if String.eqb (strip s) "" then
        if allow_blank then Valid (VStr "") else Invalid ["This field may not be blank."]
      else if within max_length (strip s) then Valid (VStr (strip s))
      else Invalid [too_long max_length]
  | _ => Invalid ["Not a valid string."]
  end.

Definition choice_field (choices : list string) (allow_blank allow_null : bool)
    (r : Raw) : FieldResult :=
  match r with
  | RNull => if allow_null then Valid VNull else Invalid ["This field may not be null."]
  | RStr s =>
      if String.eqb s "" && allow_blank then Valid (VStr "")
      else if bool_decide (s ∈ choices) then Valid (VStr s)
      else Invalid [not_a_choice s]
  | _ => Invalid [not_a_choice (str_of_raw r)]
  end.

Definition boolean_field `{Framework} (r : Raw) : FieldResult :=
  match r with
  | RBool b => Valid (VBool b)
  | RStr s =>
      match bool_of_text s with
      | Some b => Valid (VBool b)
      | None => Invalid ["Must be a valid boolean."]
      end
  | RNull => Invalid ["This field may not be null."]
  | RFile _ => Invalid ["Must be a valid boolean."]
  end.

Definition url_field `{Framework} (allow_blank allow_null : bool) (r : Raw) : FieldResult :=
  match char_field (Some 200%nat) allow_blank allow_null r with
  | Valid (VStr s) =>
      if String.eqb s "" || url_valid s then Valid (VStr s)
      else Invalid ["Enter a valid URL."]
  | other => other
  end.

Definition date_field `{Framework} (allow_null : bool) (r : Raw) : FieldResult :=
  match r with
  | RNull => if allow_null then Valid VNull else Invalid ["This field may not be null."]
  | RStr s =>
      if date_valid s then Valid (VStr s)
      else Invalid [wrong_date]
  | _ => Invalid [wrong_date]
  end.

(** An image field; the validated upload is written with the name the
    storage gives it when the instance is saved. *)
Definition image_field `{Framework} (allow_null : bool) (r : Raw) : FieldResult :=
  match r with
  | RNull => if allow_null then Valid VNull else Invalid ["This field may not be null."]
  | RFile name =>
      if image_valid name then Valid (VStr (storage_name name))
      else Invalid ["Upload a valid image. The file you uploaded was either not an image or a corrupted image."]
  | _ => Invalid ["The submitted data was not a file. Check the encoding type on the form."]
  end.

(** The serializer field a [ModelSerializer] builds for a column of
    models.py.  Every column there has a default, or is [blank=True] or
    [null=True], so none of these fields is required. *)
Definition model_field_to_internal `{Framework} (mf : ModelField) (r : Raw) : FieldResult :=
  match mf with
  | MCharField n (Some choices) blank null => choice_field choices blank null r
  | MCharField n None blank null => char_field (Some n) blank null r
  | MTextField n blank null => char_field (Some n) blank null r
  | MURLField blank null => url_field blank null r
  | MDateField blank null => date_field null r
  | MImageField blank null => image_field null r
  | MBooleanField => boolean_field r
  | MDateTimeField => Skip
  end.

Definition model_field (name : string) : option ModelField :=
  snd <$> List.find (λ nf, String.eqb nf.1 name) CustomUser_fields.

Definition model_serializer_field `{Framework} (partial : bool) (s : Store)
    (name : string) (raw : option Raw) : FieldResult :=
  match model_field name with
  | Some mf => run_field partial false (model_field_to_internal mf) raw
  | None => run_field partial (base_required name) (base_field s name) raw
  end.

(** A field declared in the serializer as [CharField(required=True)]. *)
Definition required_char_field (raw : option Raw) : FieldResult :=
  run_field false true (char_field None false false) raw.

(** [Serializer.to_internal_value]: every field of the serializer is run on
    its key; the errors and the validated data are collected side by side. *)
Fixpoint to_internal_value (field : string → option Raw → FieldResult)
    (fields : list string) (request_data : gmap string Raw)
    : Errors * gmap string Value :=
  match fields with
  | [] => ([], ∅)
  | name :: rest =>
      let '(errors, ret) := to_internal_value field rest request_data in
      match field name (request_data !! name) with
      | Skip => (errors, ret)
      | Valid v => (errors, <[name := v]> ret)
      | Invalid messages => ((name, messages) :: errors, ret)
      end
  end.

(** [Serializer.run_validation]: the fields first; [validate] only sees data
    whose fields all passed. *)
Definition run_validation {A} (field : string → option Raw → FieldResult)
    (fields : list string) (validate : gmap string Value → Errors + A)
    (request_data : gmap string Raw) : Errors + A :=
  match to_internal_value field fields request_data with
  | ([], ret) => validate ret
  | (errors, _) => inl errors
  end.

(** [ModelSerializer.to_representation]: the fields of [Meta.fields] in
    order. *)
Definition field_to_representation `{Framework} (user : CustomUser) (name : string) : JSON :=
  if String.eqb name "full_name" then
    (* get_full_name() or username *)
    JStr (if String.eqb (get_full_name user) "" then text_of (getattr user "username")
          else get_full_name user)
  else if String.eqb name "profile_picture" then
    (if truthy (getattr user name) then JStr (media_url (text_of (getattr user name)))
     else JNull)
  else json_of_value (getattr user name).

Definition to_representation `{Framework} (fields : list string) (user : CustomUser) : JSON :=
  JObj (map (λ name, (name, field_to_representation user name)) fields).


(** ** The user manager and the authentication backend *)

Section Manager.
Context `{Framework}.

(** [CustomUser.objects.create_user(password=..., **fields)]: the user name
    must be set and, normalized, new by the unique index of the table; the
    row goes under the key [next_id] that the sequence of the primary key
    hands out, which must be free; the user name and the e-mail address are
    stored normalized and the password hashed; every column that is not
    given takes its default. *)
Definition create_user (now next_id : Z) (s : Store) (password : string)
    (fields : gmap string Value) : option (CustomUser * Store) :=
  match fields !! "username" with
  | Some (VStr username) =>
      if String.eqb username "" then None
      else match get_by_natural_key s (normalize_username username), s !! next_id with
      | Some _, _ | _, Some _ => None
      | None, None =>
          let stamps : gmap string Value :=
            list_to_map [("created_at", VInt now); ("updated_at", VInt now);
                         ("date_joined", VInt now)] in
          let email := text_of (default VNull (fields !! "email")) in
          let row := <["password" := VStr (make_password password)]>
                       (<["username" := VStr (normalize_username username)]>
                          (<["email" := VStr (normalize_email email)]>
                             (fields ∪ stamps ∪ list_to_map field_defaults))) in
          let user := {| pk := next_id; attrs := row |} in
          Some (user, save s user)
      end
  | _ => None
  end.

(** [django.contrib.auth.authenticate] with the model backend: the account
    of that user name, if the password checks against its hash and the
    account is active. *)
Definition authenticate (s : Store) (username password : option Value)
    : option CustomUser :=
  match username, password with
  | Some (VStr u), Some (VStr w) =>
      match get_by_natural_key s u with
      | Some user => if check_password user w && is_active user then Some user else None
      | None => None
      end
  | _, _ => None
  end.

End Manager.

(** ** serializers.py *)

Module UserDetailSerializer.
Definition fields : list string :=
  [ "id"; "username"; "email"; "first_name"; "last_name"; "full_name";
    "phone_number"; "gender"; "date_of_birth"; "nationality"; "address";
    "city"; "state"; "postal_code"; "country"; "profile_picture"; "bio";
    "website"; "user_type"; "is_verified"; "is_phone_verified";
    "is_identity_verified"; "is_licensed"; "business_name";
    "business_license"; "language_preference"; "receive_notifications";
    "receive_sms"; "created_at"; "updated_at" ].
End UserDetailSerializer.

Module UserCreateSerializer.
Section Serializer.
Context `{Framework}.

Definition fields : list string :=
  [ "username"; "email"; "first_name"; "last_name"; "password"; "password2";
    "user_type"; "phone_number" ].

Definition field (s : Store) (name : string) (raw : option Raw) : FieldResult :=
  if String.eqb name "password" || String.eqb name "password2"
  then required_char_field raw
  else model_serializer_field false s name raw.

Definition validate (data : gmap string Value) : Errors + gmap string Value :=
  if bool_decide (data !! "password" ≠ data !! "password2")
  then inl [("password", ["Passwords do not match"])]
  else inr data.

Definition create (now next_id : Z) (s : Store) (validated_data : gmap string Value)
    : option (CustomUser * Store) :=
  let validated_data' := delete "password2" validated_data in
  match validated_data' !! "password" with
  | Some (VStr password) =>
      create_user now next_id s password (delete "password" validated_data')
  | _ => None
  end.

End Serializer.
End UserCreateSerializer.

Module UserUpdateSerializer.
Section Serializer.
Context `{Framework}.

Definition fields : list string :=
  [ "first_name"; "last_name"; "phone_number"; "gender"; "date_of_birth";
    "nationality"; "address"; "city"; "state"; "postal_code"; "country";
    "profile_picture"; "bio"; "website"; "language_preference";
    "receive_notifications"; "receive_sms" ].

Definition field (partial : bool) (s : Store) (name : string) (raw : option Raw)
    : FieldResult :=
  model_serializer_field partial s name raw.

End Serializer.
End UserUpdateSerializer.

Module UserPasswordChangeSerializer.
Section Serializer.
Context `{Framework}.

Definition fields : list string := [ "old_password"; "new_password"; "new_password2" ].

Definition validate (data : gmap string Value) : Errors + gmap string Value :=
  if bool_decide (data !! "new_password" ≠ data !! "new_password2")
  then inl [("new_password", ["New passwords do not match"])]
  else inr data.

Definition validate_old_password (user : CustomUser) (value : string) : FieldResult :=
  if negb (check_password user value)
  then Invalid ["Old password is incorrect"]
  else Valid (VStr value).

Definition field (user : CustomUser) (name : string) (raw : option Raw) : FieldResult :=
  if String.eqb name "old_password" then
    match required_char_field raw with
    | Valid (VStr value) => validate_old_password user value
    | other => other
    end
  else required_char_field raw.

End Serializer.
End UserPasswordChangeSerializer.

Module UserLoginSerializer.
Section Serializer.
Context `{Framework}.

Definition fields : list string := [ "username"; "password" ].

Definition field (name : string) (raw : option Raw) : FieldResult :=
  required_char_field raw.

(** The validated data with the authenticated account under ['user']. *)
Definition validate (s : Store) (data : gmap string Value) : Errors + CustomUser :=
  match authenticate s (data !! "username") (data !! "password") with
  | Some user => inr user
  | None => inl [("non_field_errors", ["Invalid credentials"])]
  end.

End Serializer.
End UserLoginSerializer.

Module UserProfilePictureSerializer.
Section Serializer.
Context `{Framework}.

Definition fields : list string := [ "profile_picture" ].

Definition field (partial : bool) (s : Store) (name : string) (raw : option Raw)
    : FieldResult :=
  model_serializer_field partial s name raw.

End Serializer.
End UserProfilePictureSerializer.

Module UserProviderSerializer.
Definition fields : list string :=
  [ "id"; "username"; "email"; "full_name"; "phone_number"; "profile_picture";
    "bio"; "website"; "business_name"; "is_verified"; "is_licensed" ].
End UserProviderSerializer.

(** ** views.py: [UserViewSet] *)

(** A request: the account the token authentication attached to it (none
    for an anonymous request), the body, the query string.  The body holds
    under each key the value the field reads for it ([Field.get_value]): for
    a form, after an empty form value of a nullable field was read as null
    and the one of an optional field as a missing key. *)
Record Request := {
  user : option CustomUser;
  request_data : gmap string Raw;
  query_params : gmap string string
}.

(** The answer of the permission [IsAuthenticated] (and, for an unsafe
    method, of [IsAuthenticatedOrReadOnly]) to an anonymous request. *)
Definition not_authenticated : Response :=
  {| status_code := HTTP_401_UNAUTHORIZED;
     data := JObj [("detail", JStr "Authentication credentials were not provided.")] |}.

(** The answer of [get_object] when the row is not there. *)
Definition not_found : Response :=
  {| status_code := HTTP_404_NOT_FOUND; data := JObj [("detail", JStr "Not found.")] |}.

(** An exception no view catches. *)
Definition server_error : Response :=
  {| status_code := HTTP_500_INTERNAL_SERVER_ERROR; data := JNull |}.

Module UserViewSet.
Section Views.
Context `{Framework}.

Definition register (now next_id : Z) (s : Store) (request : Request)
    : Response * Store :=
  match run_validation (UserCreateSerializer.field s) UserCreateSerializer.fields
          UserCreateSerializer.validate (request_data request) with
  | inr validated_data =>
      match UserCreateSerializer.create now next_id s validated_data with
      | Some (user, s') =>
          ({| status_code := HTTP_201_CREATED;
              data := JObj [ ("id", JInt (pk user));
                             ("access", JStr (access_token (pk user)));
                             ("refresh", JStr (refresh_token (pk user)));
                             ("user", to_representation UserDetailSerializer.fields user);
                             ("message", JStr "Registration successful!") ] |}, s')
      | None => (server_error, s)
      end
  | inl errors =>
      ({| status_code := HTTP_400_BAD_REQUEST; data := errors_json errors |}, s)
  end.

Definition login (s : Store) (request : Request) : Response :=
  match run_validation UserLoginSerializer.field UserLoginSerializer.fields
          (UserLoginSerializer.validate s) (request_data request) with
  | inr user =>
      {| status_code := HTTP_200_OK;
         data := JObj [ ("access", JStr (access_token (pk user)));
                        ("refresh", JStr (refresh_token (pk user)));
                        ("user", to_representation UserDetailSerializer.fields user);
                        ("message", JStr "Login successful!") ] |}
  | inl _ =>
      {| status_code := HTTP_401_UNAUTHORIZED;
         data := JObj [("error", JStr "Invalid credentials")] |}
  end.



Definition password_change (now : Z) (s : Store) (request : Request) : Response * Store :=
  match user request with
  | None => (not_authenticated, s)
  | Some u =>
      match run_validation (UserPasswordChangeSerializer.field u)
              UserPasswordChangeSerializer.fields
              UserPasswordChangeSerializer.validate (request_data request) with
      | inr validated_data =>
          let u' := set_password u (text_of (default VNull (validated_data !! "new_password"))) in
          let u'' := setattr u' "updated_at" (VInt now) in
          ({| status_code := HTTP_200_OK;
              data := JObj [("message", JStr "Password changed successfully!")] |},
           save s u'')
      | inl errors =>
          ({| status_code := HTTP_400_BAD_REQUEST; data := errors_json errors |}, s)
      end
  end.


Definition provider_info (s : Store) (request : Request) : Response :=
  match query_params request !! "user_id" with
  | None | Some "" =>
      {| status_code := HTTP_400_BAD_REQUEST;
         data := JObj [("error", JStr "user_id parameter required")] |}
  | Some user_id =>
      match int_of_text user_id with
      | None => server_error
      | Some k =>
          match objects_get s k with
          | Some u =>
              if is_provider u
              then {| status_code := HTTP_200_OK;
                      data := to_representation UserProviderSerializer.fields u |}
              else {| status_code := HTTP_404_NOT_FOUND;
                      data := JObj [("error", JStr "Provider not found")] |}
          | None =>
              {| status_code := HTTP_404_NOT_FOUND;
                 data := JObj [("error", JStr "Provider not found")] |}
          end
      end
  end.

Definition destroy (s : Store) (request : Request) (target : Z) : Response * Store :=
  match user request with
  | None => (not_authenticated, s)
  | Some requester =>
      match objects_get s target with
      | None => (not_found, s)
      | Some u =>
          if negb (user_eqb requester u) && negb (is_staff requester)
          then ({| status_code := HTTP_403_FORBIDDEN;
                   data := JObj [("error", JStr "You can only delete your own account")] |}, s)
          else ({| status_code := HTTP_204_NO_CONTENT;
                   data := JObj [("message", JStr "Account deleted successfully")] |},
                delete_user s u)
      end
  end.

End Views.
End UserViewSet.

(** ** An instance of the interface

    A framework small enough to run the views on concrete requests: the
    hash of a password is the password behind a marker, a number is read in
    plain decimal notation, and the columns of the base user model check
    what Django's [AbstractUser] declares for them (a user name that is
    set, at most 150 characters long and not taken). *)
Module Plain.

Definition hash (raw : string) : string := "plain$" +:+ raw.

Definition check (raw encoded : string) : bool :=
  String.eqb encoded (hash raw).

Definition read_int (text : string) : option Z :=
  Z.of_int <$> NilZero.int_of_string text.

Definition required (name : string) : bool := String.eqb name "username".

Definition field (s : Store) (name : string) (r : Raw) : FieldResult :=
  if String.eqb name "username" then
    match char_field (Some 150%nat) false false r with
    | Valid (VStr u) =>
        match get_by_natural_key s u with
        | Some _ => Invalid ["A user with that username already exists."]
        | None => Valid (VStr u)
        end
    | other => other
    end
  else if String.eqb name "email" then char_field (Some 254%nat) true false r
  else char_field (Some 150%nat) true false r.

Definition read_bool (text : string) : option bool :=
  if String.eqb text "true" then Some true
  else if String.eqb text "false" then Some false
  else None.

Lemma check_hash raw raw' :
  check raw (hash raw') = true ↔ raw = raw'.
Proof.
  unfold check, hash. rewrite String.eqb_eq. split.
  - intros Heq. simpl in Heq. by injection Heq.
  - by intros ->.
Qed.

Lemma read_int_decimal k :
  read_int (NilZero.string_of_int (Z.to_int k)) = Some k.
Proof.
  unfold read_int. rewrite NilZero.isi.
  - simpl. f_equal. apply DecimalZ.of_to.
  - destruct k; simpl; try discriminate.
    intros [= Hnil]. by apply DecimalPos.Unsigned.to_uint_nonnil in Hnil.
  - destruct k; simpl; try discriminate.
    intros [= Hnil]. by apply DecimalPos.Unsigned.to_uint_nonnil in Hnil.
Qed.

Definition framework : Framework := {|
  make_password := hash;
  check_password_hash := check;
  check_make_password := check_hash;
  refresh_token := λ k, "refresh." +:+ decimal k;
  access_token := λ k, "access." +:+ decimal k;
  int_of_text := read_int;
  int_of_text_decimal := read_int_decimal;
  base_required := required;
  base_field := field;
  url_valid := λ text, String.prefix "http" text;
  date_valid := λ text, (String.length text =? 10)%nat;
  image_valid := λ name, true;
  bool_of_text := read_bool;
  storage_name := λ name, "profiles/" +:+ name;
  media_url := λ name, "/media/" +:+ name;
  normalize_username := λ name, name;
  normalize_email := λ address, address
|}.

End Plain.

(** ** A small table to run the views on

    The accounts of the test cases of tests.py: a provider, a tourist, a
    superuser (staff, with the default role) and an account whose role is
    admin but which is not staff. *)
Module Sample.

Definition row (given : list (string * Value)) : gmap string Value :=
  list_to_map given ∪ list_to_map field_defaults.

Definition provider : gmap string Value :=
  row [ ("username", VStr "hotelprovider"); ("email", VStr "hotel@example.com");
        ("password", VStr (Plain.hash "ProviderPass123!"));
        ("user_type", VStr "provider");
        ("first_name", VStr "Cairo"); ("last_name", VStr "Hotels");
        ("phone_number", VStr "+201001234567");
        ("business_name", VStr "Cairo Luxury Hotels");
        ("is_verified", VBool true); ("is_licensed", VBool true) ].

Definition tourist : gmap string Value :=
  row [ ("username", VStr "touristuser"); ("email", VStr "tourist@example.com");
        ("password", VStr (Plain.hash "TouristPass123!"));
        ("user_type", VStr "tourist") ].

Definition superuser : gmap string Value :=
  row [ ("username", VStr "admin"); ("email", VStr "admin@example.com");
        ("password", VStr (Plain.hash "admin123"));
        ("is_staff", VBool true); ("is_superuser", VBool true) ].

Definition manager : gmap string Value :=
  row [ ("username", VStr "manager"); ("email", VStr "manager@example.com");
        ("password", VStr (Plain.hash "ManagerPass123!"));
        ("user_type", VStr "admin") ].

Definition store : Store :=
  <[1 := provider]> (<[2 := tourist]> (<[3 := superuser]> (<[4 := manager]> ∅))).

(** A request of the account with primary key [k] and row [r]. *)
Definition request_of (k : Z) (r : gmap string Value) (body : list (string * Raw)) : Request :=
  {| user := Some {| pk := k; attrs := r |};
     request_data := list_to_map body;
     query_params := ∅ |}.

Definition anonymous (body : list (string * Raw)) (query : list (string * string)) : Request :=
  {| user := None; request_data := list_to_map body; query_params := list_to_map query |}.

End Sample.

(** A row of a table that is written out with insertions is read back with
    the lemmas of the finite maps, without evaluating the rows. *)
Ltac lookup_row :=
  unfold Sample.store;
  repeat (rewrite lookup_insert_ne by done);
  first [ apply lookup_insert_eq | apply lookup_empty ].

(** * Facts about the framework layer *)

Section SerializerFacts.

Variable field : string → option Raw → FieldResult.
Variable request_data : gmap string Raw.

(** The validated data hold exactly the keys of the serializer whose field
    accepted a value. *)
Lemma to_internal_value_lookup (fields : list string) (name : string) :
  (to_internal_value field fields request_data).2 !! name =
  if bool_decide (name ∈ fields) then
    match field name (request_data !! name) with
    | Valid v => Some v
    | _ => None
    end
  else None.
Proof.
  induction fields as [|f fields IH]; simpl.
  - by rewrite lookup_empty.
  - destruct (to_internal_value field fields request_data) as [errors ret] eqn:E.
    simpl in IH.
    destruct (decide (name = f)) as [->|Hne].
    + rewrite bool_decide_eq_true_2 by (by left).
      destruct (field f (request_data !! f)) eqn:Ef; simpl.
      * rewrite IH. by case_bool_decide.
      * by rewrite lookup_insert_eq.
      * rewrite IH. by case_bool_decide.
    + assert (bool_decide (name ∈ f :: fields) = bool_decide (name ∈ fields)) as ->.
      { apply bool_decide_ext. split; [by intros [?|?]%elem_of_cons | by right]. }
      destruct (field f (request_data !! f)); simpl; try done.
      by rewrite lookup_insert_ne.
Qed.

(** No error is reported exactly when no field of the serializer rejects
    its value. *)
Lemma to_internal_value_errors (fields : list string) :
  (to_internal_value field fields request_data).1 = [] ↔
  ∀ name, name ∈ fields → ∀ m, field name (request_data !! name) ≠ Invalid m.
Proof.
  induction fields as [|f fields IH]; simpl.
  - split; [by intros _ name Hin%elem_of_nil | done].
  - destruct (to_internal_value field fields request_data) as [errors ret] eqn:E.
    simpl in IH.
    destruct (field f (request_data !! f)) eqn:Ef; simpl.
    + rewrite IH. split.
      * intros Hall name [->|Hin]%elem_of_cons m; [congruence | by apply Hall].
      * intros Hall name Hin. apply Hall. by right.
    + rewrite IH. split.
      * intros Hall name [->|Hin]%elem_of_cons m; [congruence | by apply Hall].
      * intros Hall name Hin. apply Hall. by right.
    + split; [done |]. intros Hall. exfalso.
      apply (Hall f ltac:(by left) messages). done.
Qed.

(** Every reported error is the complaint of a field of the serializer. *)
Lemma to_internal_value_error_keys (fields : list string) (name : string) (m : list string) :
  (name, m) ∈ (to_internal_value field fields request_data).1 →
  name ∈ fields ∧ field name (request_data !! name) = Invalid m.
Proof.
  induction fields as [|f fields IH]; simpl.
  - intros Hin. by apply elem_of_nil in Hin.
  - destruct (to_internal_value field fields request_data) as [errors ret] eqn:E.
    simpl in IH.
    destruct (field f (request_data !! f)) eqn:Ef; simpl.
    + intros [Hin Hf]%IH. split; [by right | done].
    + intros [Hin Hf]%IH. split; [by right | done].
    + intros [[= -> ->]|Hin]%elem_of_cons.
      * split; [by left | done].
      * destruct (IH Hin). split; [by right | done].
Qed.

(** And every complaint of a field of the serializer is reported. *)
Lemma to_internal_value_error_elem (fields : list string) (name : string) (m : list string) :
  (name, m) ∈ (to_internal_value field fields request_data).1 ↔
  name ∈ fields ∧ field name (request_data !! name) = Invalid m.
Proof.
  split; [apply to_internal_value_error_keys|].
  induction fields as [|f fields IH]; simpl.
  - intros [Hin _]. by apply elem_of_nil in Hin.
  - destruct (to_internal_value field fields request_data) as [errors ret] eqn:E.
    simpl in IH.
    intros [Hin Hf]. apply elem_of_cons in Hin as [->|Hin].
    + rewrite Hf. simpl. by left.
    + destruct (field f (request_data !! f)); simpl;
        [by apply IH | by apply IH | right; by apply IH].
Qed.

End SerializerFacts.

(** A key that is missing, null or empty under [CharField(required=True)]. *)
Definition missing_or_empty (raw : option Raw) : Prop :=
  raw = None ∨ raw = Some RNull ∨ raw = Some (RStr "").

Lemma required_char_field_Valid (raw : option Raw) (v : Value) :
  required_char_field raw = Valid v →
  ∃ text, raw = Some (RStr text) ∧ strip text ≠ "" ∧ v = VStr (strip text).
Proof.
  unfold required_char_field, run_field, char_field, within.
  destruct raw as [[| |text|]|]; try discriminate.
  destruct (String.eqb (strip text) "") eqn:Et; [discriminate|].
  intros Hv. injection Hv as <-. exists text.
  split; [reflexivity|]. split; [|reflexivity].
  by apply String.eqb_neq.
Qed.


Lemma required_char_field_missing (raw : option Raw) :
  missing_or_empty raw → ∃ m, required_char_field raw = Invalid m.
Proof. intros [->|[->| ->]]; by eexists. Qed.

Lemma required_char_field_not_Skip (raw : option Raw) :
  required_char_field raw ≠ Skip.
Proof.
  unfold required_char_field, run_field, char_field, within.
  destruct raw as [[| |text|]|]; try discriminate.
  destruct (String.eqb (strip text) ""); discriminate.
Qed.

(** * Facts about the table *)

(** No two rows share a user name: the unique index of the column. *)
Definition unique_usernames (s : Store) : Prop :=
  ∀ k1 k2 r1 r2 name,
    s !! k1 = Some r1 → s !! k2 = Some r2 →
    r1 !! "username" = Some (VStr name) → r2 !! "username" = Some (VStr name) →
    k1 = k2.


Lemma get_by_natural_key_Some (s : Store) (name : string) (u : CustomUser) :
  get_by_natural_key s name = Some u →
  s !! pk u = Some (attrs u) ∧ attrs u !! "username" = Some (VStr name).
Proof.
  unfold get_by_natural_key.
  destruct (List.find _ _) as [[k r]|] eqn:Efind; [|done].
  intros [= <-]. simpl.
  apply find_some in Efind as [Hin Hname].
  apply list_elem_of_In, elem_of_map_to_list in Hin.
  split; [done|]. by apply bool_decide_eq_true in Hname.
Qed.

Lemma get_by_natural_key_None (s : Store) (name : string) (k : Z) (r : gmap string Value) :
  get_by_natural_key s name = None → s !! k = Some r →
  r !! "username" ≠ Some (VStr name).
Proof.
  unfold get_by_natural_key.
  destruct (List.find _ _) as [kr|] eqn:Efind; [done|].
  intros _ Hk Hname.
  assert (has_username name (k, r) = false) as Hfalse.
  { apply (find_none _ _ Efind).
    by apply list_elem_of_In, elem_of_map_to_list. }
  unfold has_username in Hfalse. simpl in Hfalse.
  by rewrite bool_decide_eq_true_2 in Hfalse.
Qed.

(** With unique user names the backend finds the one row of that name. *)
Lemma get_by_natural_key_unique (s : Store) (name : string) (k : Z) (r : gmap string Value) :
  unique_usernames s → s !! k = Some r → r !! "username" = Some (VStr name) →
  get_by_natural_key s name = Some {| pk := k; attrs := r |}.
Proof.
  intros Huniq Hk Hname.
  destruct (get_by_natural_key s name) as [u|] eqn:Eget.
  - apply get_by_natural_key_Some in Eget as [Hu Hn].
    destruct u as [k' r']. simpl in *.
    assert (k' = k) as -> by (eapply Huniq; eauto).
    congruence.
  - exfalso. by eapply get_by_natural_key_None.
Qed.


(** A list of keys with no repetition, for a table that is written out. *)
Lemma unique_usernames_NoDup (s : Store) :
  NoDup ((λ kr : Z * gmap string Value, kr.2 !! "username") <$> map_to_list s) →
  unique_usernames s.
Proof.
  intros Hnd k1 k2 r1 r2 name H1 H2 Hn1 Hn2.
  apply elem_of_map_to_list in H1, H2.
  revert Hnd H1 H2. generalize (map_to_list s). intros l.
  induction l as [|[k r] l IH]; simpl.
  - by intros _ ?%elem_of_nil.
  - intros [Hnotin Hnd]%NoDup_cons.
    intros [[= -> ->]|Hin1]%elem_of_cons [[= -> ->]|Hin2]%elem_of_cons; try done.
    + exfalso. apply Hnotin. apply list_elem_of_fmap. exists (k2, r2).
      simpl. split; [congruence | done].
    + exfalso. apply Hnotin. apply list_elem_of_fmap. exists (k1, r1).
      simpl. split; [congruence | done].
    + by apply IH.
Qed.

Lemma getattr_lookup (u : CustomUser) (name : string) :
  name ≠ "id" → getattr u name = default VNull (attrs u !! name).
Proof.
  intros Hne. unfold getattr.
  destruct (String.eqb name "id") eqn:E; [by apply String.eqb_eq in E | done].
Qed.

(** * The views, case by case *)

Section ViewFacts.
Context `{Framework}.

(** The one answer of [login] to a request it does not accept. *)
Definition invalid_credentials : Response :=
  {| status_code := HTTP_401_UNAUTHORIZED;
     data := JObj [("error", JStr "Invalid credentials")] |}.

Definition login_successful (u : CustomUser) : Response :=
  {| status_code := HTTP_200_OK;
     data := JObj [ ("access", JStr (access_token (pk u)));
                    ("refresh", JStr (refresh_token (pk u)));
                    ("user", to_representation UserDetailSerializer.fields u);
                    ("message", JStr "Login successful!") ] |}.

(** [login] in one equation: both fields must pass, then the backend
    decides. *)
Lemma login_unfold (s : Store) (request : Request) :
  UserViewSet.login s request =
  match required_char_field (request_data request !! "username"),
        required_char_field (request_data request !! "password") with
  | Valid u, Valid w =>
      match authenticate s (Some u) (Some w) with
      | Some account => login_successful account
      | None => invalid_credentials
      end
  | _, _ => invalid_credentials
  end.
Proof.
  unfold UserViewSet.login, run_validation, UserLoginSerializer.fields,
    UserLoginSerializer.field, UserLoginSerializer.validate.
  simpl.
  destruct (required_char_field (request_data request !! "username")) as [|u|m1];
    destruct (required_char_field (request_data request !! "password")) as [|w|m2];
    simpl; try done.
  - rewrite lookup_insert_eq, lookup_insert_ne, lookup_empty by done.
    by destruct u.
  - rewrite lookup_insert_eq, lookup_insert_ne, lookup_insert_eq by done.
    unfold authenticate. destruct u as [| | |u]; try done.
    destruct w as [| | |w]; try done.
    destruct (get_by_natural_key s u) as [account|]; [|done].
    by destruct (check_password account w && is_active account).
Qed.


End ViewFacts.

Lemma decimal_nonempty (k : Z) : decimal k ≠ "".
Proof.
  unfold decimal. destruct k as [|p|p]; simpl; try done.
  all: destruct (Pos.to_uint p); done.
Qed.

Section ProviderFacts.
Context `{Framework}.

(** The one answer of [provider_info] when the lookup finds no provider. *)
Definition provider_not_found : Response :=
  {| status_code := HTTP_404_NOT_FOUND;
     data := JObj [("error", JStr "Provider not found")] |}.

(** [provider_info] on the decimal text of a primary key. *)
Lemma provider_info_decimal (s : Store) (request : Request) (k : Z) :
  query_params request !! "user_id" = Some (decimal k) →
  UserViewSet.provider_info s request =
  match objects_get s k with
  | Some u =>
      if is_provider u
      then {| status_code := HTTP_200_OK;
              data := to_representation UserProviderSerializer.fields u |}
      else provider_not_found
  | None => provider_not_found
  end.
Proof.
  intros Hq. unfold UserViewSet.provider_info. rewrite Hq.
  destruct (decimal k) as [|c rest] eqn:E; [by apply decimal_nonempty in E|].
  rewrite <- E. unfold decimal. by rewrite int_of_text_decimal.
Qed.

End ProviderFacts.

(** * The claims *)

Section Claims.
Context `{Framework}.

(** C3. For every identifier, [provider_info] answers 404 with the body
    [{"error": "Provider not found"}] both in a table that has no account
    under the identifier and in a table where the account under it has a
    role other than provider (tourist, admin): the two answers are the same
    response, so the caller cannot tell the cases apart. *)
Theorem provider_info_hides_non_providers
    (s_absent s_other : Store) (request : Request) (k : Z) (r : gmap string Value) :
  query_params request !! "user_id" = Some (decimal k) →
  s_absent !! k = None →
  s_other !! k = Some r →
  r !! "user_type" ≠ Some (VStr "provider") →
  UserViewSet.provider_info s_absent request = provider_not_found ∧
  UserViewSet.provider_info s_other request = provider_not_found ∧
  UserViewSet.provider_info s_absent request = UserViewSet.provider_info s_other request.
Proof.
  intros Hq Habsent Hother Hrole.
  assert (UserViewSet.provider_info s_absent request = provider_not_found) as E1.
  { rewrite (provider_info_decimal _ _ k Hq). unfold objects_get. by rewrite Habsent. }
  assert (UserViewSet.provider_info s_other request = provider_not_found) as E2.
  { rewrite (provider_info_decimal _ _ k Hq). unfold objects_get. rewrite Hother. simpl.
    unfold is_provider. rewrite getattr_lookup by done. simpl.
    rewrite bool_decide_eq_false_2; [done|].
    destruct (r !! "user_type") as [v|]; simpl; [|done]. congruence. }
  split_and!; [done | done | by rewrite E1, E2].
Qed.

(** C4. For every user name and password, read as the serializer reads
    them (without the white space around them), [login] answers 401 with the
    body [{"error": "Invalid credentials"}] both in a table with no account
    of that user name and in a table where the account of that name has a
    hash the password does not match: the two answers are the same
    response. *)
Theorem login_failures_indistinguishable
    (s_absent s_wrong : Store) (request : Request) (u w : string)
    (k : Z) (r : gmap string Value) :
  request_data request !! "username" = Some (RStr u) →
  request_data request !! "password" = Some (RStr w) →
  (∀ k' r', s_absent !! k' = Some r' → r' !! "username" ≠ Some (VStr (strip u))) →
  unique_usernames s_wrong →
  s_wrong !! k = Some r →
  r !! "username" = Some (VStr (strip u)) →
  check_password {| pk := k; attrs := r |} (strip w) = false →
  UserViewSet.login s_absent request = invalid_credentials ∧
  UserViewSet.login s_wrong request = invalid_credentials ∧
  UserViewSet.login s_absent request = UserViewSet.login s_wrong request.
Proof.
  intros Hu Hw Habsent Huniq Hk Hname Hcheck.
  assert (UserViewSet.login s_absent request = invalid_credentials) as E1.
  { rewrite login_unfold, Hu, Hw.
    destruct (required_char_field (Some (RStr u))) as [|u'|] eqn:Eu; try done.
    destruct (required_char_field (Some (RStr w))) as [|w'|] eqn:Ew; try done.
    apply required_char_field_Valid in Eu as (? & [= <-] & _ & ->).
    apply required_char_field_Valid in Ew as (? & [= <-] & _ & ->).
    unfold authenticate.
    destruct (get_by_natural_key s_absent (strip u)) as [account|] eqn:Eget; [|done].
    apply get_by_natural_key_Some in Eget as [Hin Hn]. by apply Habsent in Hin. }
  assert (UserViewSet.login s_wrong request = invalid_credentials) as E2.
  { rewrite login_unfold, Hu, Hw.
    destruct (required_char_field (Some (RStr u))) as [|u'|] eqn:Eu; try done.
    destruct (required_char_field (Some (RStr w))) as [|w'|] eqn:Ew; try done.
    apply required_char_field_Valid in Eu as (? & [= <-] & _ & ->).
    apply required_char_field_Valid in Ew as (? & [= <-] & _ & ->).
    unfold authenticate. rewrite (get_by_natural_key_unique _ _ _ _ Huniq Hk Hname).
    by rewrite Hcheck. }
  split_and!; [done | done | by rewrite E1, E2].
Qed.

(** C9. A login request whose user name or password is missing, null or
    empty gets the same 401 [{"error": "Invalid credentials"}] as a request
    with wrong credentials; the field errors of the serializer never reach
    the response, and there is no 400. *)
Theorem login_malformed_is_invalid_credentials (s : Store) (request : Request) :
  missing_or_empty (request_data request !! "username") ∨
  missing_or_empty (request_data request !! "password") →
  UserViewSet.login s request = invalid_credentials.
Proof.
  intros Hmissing. rewrite login_unfold.
  destruct Hmissing as [[m ->]%required_char_field_missing
                       |[m ->]%required_char_field_missing]; [done|].
  by destruct (required_char_field _).
Qed.

End Claims.

Section ProviderClaims.
Context `{Framework}.

(** What [provider_info] returns for a provider, whatever the account: the
    eleven keys of [UserProviderSerializer.Meta.fields], the e-mail address
    and the phone number of the account among them. *)
Lemma provider_info_fields (s : Store) (request : Request) (k : Z) (r : gmap string Value) :
  query_params request !! "user_id" = Some (decimal k) →
  s !! k = Some r →
  r !! "user_type" = Some (VStr "provider") →
  status_code (UserViewSet.provider_info s request) = HTTP_200_OK ∧
  json_keys (data (UserViewSet.provider_info s request)) =
    [ "id"; "username"; "email"; "full_name"; "phone_number"; "profile_picture";
      "bio"; "website"; "business_name"; "is_verified"; "is_licensed" ] ∧
  json_get "email" (data (UserViewSet.provider_info s request)) =
    Some (json_of_value (default VNull (r !! "email"))) ∧
  json_get "phone_number" (data (UserViewSet.provider_info s request)) =
    Some (json_of_value (default VNull (r !! "phone_number"))).
Proof.
  intros Hq Hk Hrole. rewrite (provider_info_decimal _ _ k Hq).
  unfold objects_get. rewrite Hk. simpl.
  unfold is_provider. rewrite getattr_lookup by done. simpl. rewrite Hrole. simpl.
  split_and!; reflexivity.
Qed.

End ProviderClaims.

(** C1. The response of [provider_info] for the provider of the sample
    table (the account of [ProviderInfoTest]) is evaluated: it is a 200 whose
    keys are the eleven fields of [UserProviderSerializer], and it carries
    the e-mail address and the phone number of the account, which the
    docstring of the serializer lists as hidden.  The address is not in it.
    By [provider_info_fields] the same holds for every provider. *)
Theorem provider_info_exposes_email_and_phone :
  let response :=
    UserViewSet.provider_info (H := Plain.framework) Sample.store
      (Sample.anonymous [] [("user_id", "1")]) in
  status_code response = HTTP_200_OK ∧
  json_keys (data response) =
    [ "id"; "username"; "email"; "full_name"; "phone_number"; "profile_picture";
      "bio"; "website"; "business_name"; "is_verified"; "is_licensed" ] ∧
  json_get "email" (data response) = Some (JStr "hotel@example.com") ∧
  json_get "phone_number" (data response) = Some (JStr "+201001234567") ∧
  json_get "address" (data response) = None.
Proof. vm_compute. split_and!; reflexivity. Qed.

Section DestroyClaims.

Definition account_deleted : Response :=
  {| status_code := HTTP_204_NO_CONTENT;
     data := JObj [("message", JStr "Account deleted successfully")] |}.

Definition only_own_account : Response :=
  {| status_code := HTTP_403_FORBIDDEN;
     data := JObj [("error", JStr "You can only delete your own account")] |}.

(** C2, as amended.  For an authenticated principal [p] and a target [t]
    that is in the table: if [p] is [t] or [p] is staff ([is_staff], whatever
    its role), [destroy] answers 204 and the row of [t] is gone from the
    table; if [p] is not [t] and [p] is no admin user in the sense of
    [is_admin_user] (its role is not admin and it is not staff), [destroy]
    answers 403 "You can only delete your own account" and the table is as
    it was. *)
Theorem destroy_owner_or_staff
    (s : Store) (request : Request) (p : CustomUser) (t : Z) (r : gmap string Value) :
  user request = Some p →
  s !! t = Some r →
  (pk p = t ∨ is_staff p = true →
     UserViewSet.destroy s request t = (account_deleted, delete t s) ∧
     delete t s !! t = None) ∧
  (pk p ≠ t ∧ is_admin_user p = false →
     UserViewSet.destroy s request t = (only_own_account, s) ∧
     s !! t = Some r).
Proof.
  intros Hp Ht. unfold UserViewSet.destroy, objects_get. rewrite Hp, Ht. simpl.
  unfold user_eqb, delete_user. simpl. split.
  - intros Hallowed. split; [|apply lookup_delete_eq].
    destruct Hallowed as [Hown | Hstaff].
    + rewrite Hown. by rewrite Z.eqb_refl.
    + rewrite Hstaff. by rewrite andb_false_r.
  - intros [Hne Hadmin]. split; [|done].
    apply orb_false_iff in Hadmin as [_ ->].
    apply Z.eqb_neq in Hne. by rewrite Hne.
Qed.

End DestroyClaims.

(** The owner deletes the own account, and a tourist is refused the
    account of the provider. *)
Lemma destroy_owner_or_staff_witness :
  (UserViewSet.destroy Sample.store (Sample.request_of 2 Sample.tourist []) 2
     = (account_deleted, delete 2 Sample.store) ∧
   delete 2 Sample.store !! 2 = None) ∧
  (UserViewSet.destroy Sample.store (Sample.request_of 2 Sample.tourist []) 1
     = (only_own_account, Sample.store) ∧
   Sample.store !! 1 = Some Sample.provider).
Proof.
  pose proof (destroy_owner_or_staff Sample.store
                (Sample.request_of 2 Sample.tourist [])
                {| pk := 2; attrs := Sample.tourist |} 2 Sample.tourist
                eq_refl ltac:(lookup_row)) as [Hown _].
  pose proof (destroy_owner_or_staff Sample.store
                (Sample.request_of 2 Sample.tourist [])
                {| pk := 2; attrs := Sample.tourist |} 1 Sample.provider
                eq_refl ltac:(lookup_row)) as [_ Hother].
  split.
  - apply Hown. left. reflexivity.
  - apply Hother. split; [simpl; lia | vm_compute; reflexivity].
Defined.

(** C2 as it is stated fails: the superuser of [UserDeleteTest] is staff,
    its role is the default one, tourist, and it is not the target; yet
    [destroy] answers 204 and the row of the target, which was in the table,
    is gone. *)
Lemma destroy_by_staff_with_tourist_role :
  let p := {| pk := 3; attrs := Sample.superuser |} in
  let outcome := UserViewSet.destroy Sample.store (Sample.request_of 3 Sample.superuser []) 2 in
  Sample.store !! 3 = Some (attrs p) ∧
  is_Some (Sample.store !! 2) ∧
  pk p ≠ 2 ∧
  getattr p "user_type" = VStr "tourist" ∧
  is_staff p = true ∧
  outcome.1 = account_deleted ∧
  outcome.2 !! 2 = None.
Proof.
  simpl. split_and!.
  - lookup_row.
  - exists Sample.tourist. lookup_row.
  - done.
  - vm_compute. reflexivity.
  - vm_compute. reflexivity.
  - vm_compute. reflexivity.
  - vm_compute. reflexivity.
Qed.

(** The account whose role is admin but which is not staff is refused the
    deletion of another account, although [is_admin_user] counts it as an
    admin. *)
Lemma destroy_by_admin_role_without_staff :
  let p := {| pk := 4; attrs := Sample.manager |} in
  let outcome := UserViewSet.destroy Sample.store (Sample.request_of 4 Sample.manager []) 2 in
  is_admin_user p = true ∧ is_staff p = false ∧
  outcome.1 = only_own_account ∧
  (outcome.2 !! 2) ≫= (λ r, r !! "username") = Some (VStr "touristuser").
Proof. simpl. split_and!; vm_compute; reflexivity. Qed.

(** An anonymous caller asks for the tourist of the sample table, once in a
    table that does not have the row and once in the table that has it. *)
Lemma provider_info_hides_non_providers_witness :
  UserViewSet.provider_info (H := Plain.framework) (delete 2 Sample.store)
    (Sample.anonymous [] [("user_id", "2")]) = provider_not_found ∧
  UserViewSet.provider_info (H := Plain.framework) Sample.store
    (Sample.anonymous [] [("user_id", "2")]) = provider_not_found ∧
  UserViewSet.provider_info (H := Plain.framework) (delete 2 Sample.store)
    (Sample.anonymous [] [("user_id", "2")]) =
  UserViewSet.provider_info (H := Plain.framework) Sample.store
    (Sample.anonymous [] [("user_id", "2")]).
Proof.
  apply (provider_info_hides_non_providers (H := Plain.framework)
           (delete 2 Sample.store) Sample.store
           (Sample.anonymous [] [("user_id", "2")]) 2 Sample.tourist).
  - vm_compute. reflexivity.
  - apply lookup_delete_eq.
  - lookup_row.
  - vm_compute. discriminate.
Defined.

Lemma sample_usernames_unique : unique_usernames Sample.store.
Proof.
  apply unique_usernames_NoDup. apply (bool_decide_unpack _).
  vm_compute. exact I.
Qed.

(** The tourist of the sample table logs in with a wrong password, the
    user name sent with white space around it, once in a table without the
    row and once in the table that has it. *)
Lemma login_failures_indistinguishable_witness :
  let request :=
    Sample.anonymous [("username", RStr " touristuser "); ("password", RStr "guess")] [] in
  UserViewSet.login (H := Plain.framework) (delete 2 Sample.store) request
    = invalid_credentials ∧
  UserViewSet.login (H := Plain.framework) Sample.store request = invalid_credentials ∧
  UserViewSet.login (H := Plain.framework) (delete 2 Sample.store) request =
  UserViewSet.login (H := Plain.framework) Sample.store request.
Proof.
  apply (login_failures_indistinguishable (H := Plain.framework)
           (delete 2 Sample.store) Sample.store _ " touristuser " "guess"
           2 Sample.tourist).
  - vm_compute. reflexivity.
  - vm_compute. reflexivity.
  - intros k' r' Hk'.
    replace (strip " touristuser ") with "touristuser" by (vm_compute; reflexivity).
    apply (get_by_natural_key_None (delete 2 Sample.store) "touristuser" k' r'); [|exact Hk'].
    vm_compute. reflexivity.
  - apply sample_usernames_unique.
  - lookup_row.
  - vm_compute. reflexivity.
  - vm_compute. reflexivity.
Defined.

(** A login request without a password. *)
Lemma login_malformed_is_invalid_credentials_witness :
  UserViewSet.login (H := Plain.framework) Sample.store
    (Sample.anonymous [("username", RStr "touristuser")] []) = invalid_credentials.
Proof.
  apply (login_malformed_is_invalid_credentials (H := Plain.framework)).
  right. left. vm_compute. reflexivity.
Defined.

(** * Registration *)

Section RegisterFacts.
Context `{Framework}.

Lemma run_validation_inr {A} (field : string → option Raw → FieldResult)
    (fields : list string) (validate : gmap string Value → Errors + A)
    (request_data : gmap string Raw) (a : A) :
  run_validation field fields validate request_data = inr a →
  (to_internal_value field fields request_data).1 = [] ∧
  validate (to_internal_value field fields request_data).2 = inr a.
Proof.
  unfold run_validation.
  destruct (to_internal_value field fields request_data) as [[|e errors] ret]; [done|].
  discriminate.
Qed.


(** The three time stamps of a new row. *)
Lemma stamps_lookup (now : Z) (name : string) :
  (list_to_map [("created_at", VInt now); ("updated_at", VInt now);
                ("date_joined", VInt now)] : gmap string Value) !! name =
  if bool_decide (name ∈ ["created_at"; "updated_at"; "date_joined"])
  then Some (VInt now) else None.
Proof.
  change (list_to_map [("created_at", VInt now); ("updated_at", VInt now);
                       ("date_joined", VInt now)] : gmap string Value)
    with (<["created_at" := VInt now]>
            (<["updated_at" := VInt now]>
               (<["date_joined" := VInt now]> (∅ : gmap string Value)))).
  destruct (decide (name = "created_at")) as [->|H1].
  { rewrite lookup_insert_eq. by rewrite bool_decide_eq_true_2 by (by left). }
  rewrite lookup_insert_ne by done.
  destruct (decide (name = "updated_at")) as [->|H2].
  { rewrite lookup_insert_eq.
    by rewrite bool_decide_eq_true_2 by (right; by left). }
  rewrite lookup_insert_ne by done.
  destruct (decide (name = "date_joined")) as [->|H3].
  { rewrite lookup_insert_eq.
    by rewrite bool_decide_eq_true_2 by (right; right; by left). }
  rewrite lookup_insert_ne, lookup_empty by done.
  rewrite bool_decide_eq_false_2; [done|].
  intros [?|[?|[?|?%elem_of_nil]%elem_of_cons]%elem_of_cons]%elem_of_cons; done.
Qed.

Lemma create_user_row (now next_id : Z) (s s' : Store) (password : string)
    (fields : gmap string Value) (u : CustomUser) :
  create_user now next_id s password fields = Some (u, s') →
  pk u = next_id ∧ s !! next_id = None ∧ s' = <[next_id := attrs u]> s ∧
  attrs u !! "password" = Some (VStr (make_password password)) ∧
  (∃ name, fields !! "username" = Some (VStr name) ∧ name ≠ "" ∧
           attrs u !! "username" = Some (VStr (normalize_username name)) ∧
           get_by_natural_key s (normalize_username name) = None) ∧
  ∀ name, name ≠ "password" → name ≠ "username" → name ≠ "email" →
    attrs u !! name =
    match fields !! name with
    | Some v => Some v
    | None =>
        if bool_decide (name ∈ ["created_at"; "updated_at"; "date_joined"])
        then Some (VInt now)
        else (list_to_map field_defaults : gmap string Value) !! name
    end.
Proof.
  unfold create_user.
  destruct (fields !! "username") as [[| | |name]|] eqn:En; try discriminate.
  destruct (String.eqb name "") eqn:Eempty; [discriminate|].
  destruct (get_by_natural_key s (normalize_username name)) eqn:Eget; [discriminate|].
  destruct (s !! next_id) eqn:Efree; [discriminate|].
  intros Heq. apply (inj Some) in Heq. apply pair_equal_spec in Heq as [<- <-].
  cbn [pk attrs]. unfold save. cbn [pk attrs].
  split; [reflexivity|]. split; [reflexivity|]. split; [reflexivity|].
  split; [apply lookup_insert_eq|]. split.
  - exists name. split; [reflexivity|]. split; [intros ->; discriminate|].
    split; [|exact Eget].
    rewrite lookup_insert_ne by discriminate. apply lookup_insert_eq.
  - intros name' Hne Hne2 Hne3. rewrite !lookup_insert_ne by congruence.
    rewrite <- (assoc_L (∪)).
    destruct (fields !! name') as [v|] eqn:Ef.
    + by apply lookup_union_Some_l.
    + rewrite lookup_union_r by exact Ef.
      pose proof (stamps_lookup now name') as Hst.
      destruct (bool_decide (name' ∈ ["created_at"; "updated_at"; "date_joined"])).
      * by apply lookup_union_Some_l.
      * by apply lookup_union_r.
Qed.

(** The validated data of registration never hold a key outside the fields
    of the serializer. *)
Lemma create_validated_keys (s : Store) (request_data : gmap string Raw) (name : string) :
  name ∉ UserCreateSerializer.fields →
  (to_internal_value (UserCreateSerializer.field s) UserCreateSerializer.fields
     request_data).2 !! name = None.
Proof.
  intros Hnot. rewrite to_internal_value_lookup.
  by rewrite bool_decide_eq_false_2.
Qed.

Lemma create_validate_inr (data v : gmap string Value) :
  UserCreateSerializer.validate data = inr v → v = data.
Proof.
  unfold UserCreateSerializer.validate. case_bool_decide; congruence.
Qed.

End RegisterFacts.

(** A closed and decidable statement is settled by evaluation. *)
Ltac decide_closed := apply (bool_decide_unpack _); vm_compute; exact I.

Lemma default_of_flag (name : string) :
  name ∈ ["is_verified"; "is_phone_verified"; "is_identity_verified"; "is_licensed"] →
  (list_to_map field_defaults : gmap string Value) !! name = Some (VBool false) ∧
  (name ∉ UserCreateSerializer.fields) ∧
  (name ∉ ["created_at"; "updated_at"; "date_joined"]) ∧
  name ≠ "password" ∧ name ≠ "username" ∧ name ≠ "email".
Proof.
  intros Hin.
  repeat (apply elem_of_cons in Hin as [->|Hin];
          [split_and!;
             [vm_compute; reflexivity | decide_closed | decide_closed | done | done | done]|]).
  by apply elem_of_nil in Hin.
Qed.

Section RegisterClaims.
Context `{Framework}.

Definition passwords_do_not_match : Response :=
  {| status_code := HTTP_400_BAD_REQUEST;
     data := JObj [("password", JArr [JStr "Passwords do not match"])] |}.

(** C8. Every account a successful [register] creates is a new row, under
    the key the sequence of the primary key handed out, in which the four
    verification flags are false; and when the request names no [user_type]
    the role of the row is tourist. *)
Theorem register_defaults
    (now next_id : Z) (s s' : Store) (request : Request) (response : Response) :
  UserViewSet.register now next_id s request = (response, s') →
  status_code response = HTTP_201_CREATED →
  ∃ row,
    s !! next_id = None ∧
    s' = <[next_id := row]> s ∧
    json_get "id" (data response) = Some (JInt next_id) ∧
    row !! "is_verified" = Some (VBool false) ∧
    row !! "is_phone_verified" = Some (VBool false) ∧
    row !! "is_identity_verified" = Some (VBool false) ∧
    row !! "is_licensed" = Some (VBool false) ∧
    (request_data request !! "user_type" = None →
     row !! "user_type" = Some (VStr "tourist")).
Proof.
  unfold UserViewSet.register.
  destruct (run_validation _ _ _ _) as [errors|v] eqn:Ev.
  { intros Heq. apply pair_equal_spec in Heq as [<- _]. cbn. discriminate. }
  apply run_validation_inr in Ev as [_ Hv%create_validate_inr].
  destruct (UserCreateSerializer.create now next_id s v) as [[u s'']|] eqn:Ec.
  2: { intros Heq. apply pair_equal_spec in Heq as [<- _]. cbn. discriminate. }
  intros Heq _. apply pair_equal_spec in Heq as [<- <-].
  unfold UserCreateSerializer.create in Ec.
  destruct (delete "password2" v !! "password") as [[| | |password]|]; try discriminate.
  apply create_user_row in Ec as (Hpk & Hfree & -> & _ & _ & Hrow).
  assert (∀ name, name ∉ UserCreateSerializer.fields →
            delete "password" (delete "password2" v) !! name = None) as Hkeys.
  { intros name Hnot.
    destruct (decide (name = "password")) as [->|?]; [apply lookup_delete_eq|].
    rewrite lookup_delete_ne by done.
    destruct (decide (name = "password2")) as [->|?]; [apply lookup_delete_eq|].
    rewrite lookup_delete_ne by done. subst v. by apply create_validated_keys. }
  assert (∀ name,
    name ∈ ["is_verified"; "is_phone_verified"; "is_identity_verified"; "is_licensed"] →
    attrs u !! name = Some (VBool false)) as Hflags.
  { intros name (Hdef & Hnot & Hstamp & Hne & Hne2 & Hne3)%default_of_flag.
    rewrite (Hrow name Hne Hne2 Hne3), (Hkeys name Hnot).
    by rewrite bool_decide_eq_false_2. }
  exists (attrs u). split; [exact Hfree|]. split; [reflexivity|].
  split; [cbn; by rewrite Hpk|].
  split; [apply Hflags; repeat constructor|].
  split; [apply Hflags; repeat constructor|].
  split; [apply Hflags; repeat constructor|].
  split; [apply Hflags; repeat constructor|].
  intros Habsent. rewrite (Hrow "user_type") by done.
  assert (delete "password" (delete "password2" v) !! "user_type" = None) as ->.
  { rewrite !lookup_delete_ne by done. subst v.
    rewrite to_internal_value_lookup, Habsent.
    by destruct (bool_decide _). }
  vm_compute. reflexivity.
Qed.

(** C7, as amended.  A registration whose password and confirmation, read
    without the white space around them, differ is answered with 400 and
    creates no row.  When no field of the serializer rejects its own value,
    the body of the answer is the error of [validate] under the key
    [password]; otherwise the body holds exactly the complaints of the
    fields that rejected their value, each under the name of its field. *)
Theorem register_password_mismatch
    (now next_id : Z) (s : Store) (request : Request) (password password2 : string) :
  request_data request !! "password" = Some (RStr password) →
  request_data request !! "password2" = Some (RStr password2) →
  strip password ≠ strip password2 →
  status_code (UserViewSet.register now next_id s request).1 = HTTP_400_BAD_REQUEST ∧
  (UserViewSet.register now next_id s request).2 = s ∧
  ((∀ name, name ∈ UserCreateSerializer.fields →
      ∀ m, UserCreateSerializer.field s name (request_data request !! name) ≠ Invalid m) →
   (UserViewSet.register now next_id s request).1 = passwords_do_not_match) ∧
  ((∃ name m, name ∈ UserCreateSerializer.fields ∧
      UserCreateSerializer.field s name (request_data request !! name) = Invalid m) →
   ∃ errors,
     (UserViewSet.register now next_id s request).1 =
       {| status_code := HTTP_400_BAD_REQUEST; data := errors_json errors |} ∧
     ∀ name m, (name, m) ∈ errors ↔
       name ∈ UserCreateSerializer.fields ∧
       UserCreateSerializer.field s name (request_data request !! name) = Invalid m).
Proof.
  intros Hp Hp2 Hne. unfold UserViewSet.register, run_validation.
  pose proof (to_internal_value_error_elem (UserCreateSerializer.field s)
                (request_data request) UserCreateSerializer.fields) as Helem.
  destruct (to_internal_value (UserCreateSerializer.field s) UserCreateSerializer.fields
              (request_data request)) as [errors ret] eqn:E.
  cbn [fst] in Helem.
  assert (errors = [] → UserCreateSerializer.validate ret =
            inl [("password", ["Passwords do not match"])]) as Hvalidate.
  { intros ->.
    pose proof (to_internal_value_errors (UserCreateSerializer.field s)
                  (request_data request) UserCreateSerializer.fields) as [Hall _].
    rewrite E in Hall. specialize (Hall eq_refl).
    pose proof (to_internal_value_lookup (UserCreateSerializer.field s)
                  (request_data request) UserCreateSerializer.fields "password") as L1.
    pose proof (to_internal_value_lookup (UserCreateSerializer.field s)
                  (request_data request) UserCreateSerializer.fields "password2") as L2.
    rewrite E in L1, L2. cbn [snd] in L1, L2.
    rewrite bool_decide_eq_true_2 in L1 by decide_closed.
    rewrite bool_decide_eq_true_2 in L2 by decide_closed.
    pose proof (Hall "password" ltac:(decide_closed)) as H1.
    pose proof (Hall "password2" ltac:(decide_closed)) as H2.
    rewrite Hp in L1, H1. rewrite Hp2 in L2, H2.
    change (UserCreateSerializer.field s "password" (Some (RStr password)))
      with (required_char_field (Some (RStr password))) in *.
    change (UserCreateSerializer.field s "password2" (Some (RStr password2)))
      with (required_char_field (Some (RStr password2))) in *.
    destruct (required_char_field (Some (RStr password))) as [|v1|m1] eqn:E1;
      [by apply required_char_field_not_Skip in E1 | | by destruct (H1 m1)].
    destruct (required_char_field (Some (RStr password2))) as [|v2|m2] eqn:E2;
      [by apply required_char_field_not_Skip in E2 | | by destruct (H2 m2)].
    apply required_char_field_Valid in E1 as (? & [= <-] & _ & ->).
    apply required_char_field_Valid in E2 as (? & [= <-] & _ & ->).
    unfold UserCreateSerializer.validate. rewrite L1, L2.
    rewrite bool_decide_eq_true_2; [done|]. congruence. }
  destruct errors as [|e errors].
  - rewrite (Hvalidate eq_refl). split; [reflexivity|]. split; [reflexivity|].
    split; [reflexivity|].
    intros (name & m & Hin & Hinvalid). exfalso.
    assert ((name, m) ∈ @nil (string * list string)) as Hnil by (by apply Helem).
    by apply elem_of_nil in Hnil.
  - split; [reflexivity|]. split; [reflexivity|]. split.
    + intros Hall. exfalso. destruct e as [name m].
      destruct (proj1 (Helem name m)) as [Hin Hinvalid]; [by left|].
      by apply (Hall name Hin m).
    + intros _. exists (e :: errors). split; [reflexivity|]. exact Helem.
Qed.

End RegisterClaims.

(** The registration of the example of the specification: a user name that
    is free, matching passwords, no role. *)
Lemma register_defaults_witness :
  let outcome :=
    UserViewSet.register (H := Plain.framework) 100 5 Sample.store
      (Sample.anonymous [ ("username", RStr "ali"); ("email", RStr "ali@x.com");
                          ("password", RStr "Pw1!"); ("password2", RStr "Pw1!") ] []) in
  ∃ row,
    Sample.store !! 5 = None ∧
    outcome.2 = <[5 := row]> Sample.store ∧
    json_get "id" (data outcome.1) = Some (JInt 5) ∧
    row !! "is_verified" = Some (VBool false) ∧
    row !! "is_phone_verified" = Some (VBool false) ∧
    row !! "is_identity_verified" = Some (VBool false) ∧
    row !! "is_licensed" = Some (VBool false) ∧
    (request_data
       (Sample.anonymous [ ("username", RStr "ali"); ("email", RStr "ali@x.com");
                           ("password", RStr "Pw1!"); ("password2", RStr "Pw1!") ] [])
       !! "user_type" = None →
     row !! "user_type" = Some (VStr "tourist")).
Proof.
  cbv zeta.
  apply (register_defaults (H := Plain.framework) 100 5 Sample.store).
  - apply surjective_pairing.
  - vm_compute. reflexivity.
Defined.

(** A registration with two different passwords and nothing else wrong. *)
Lemma register_password_mismatch_witness :
  let request :=
    Sample.anonymous [ ("username", RStr "ali"); ("email", RStr "ali@x.com");
                       ("password", RStr "Pw1!"); ("password2", RStr "Pw2!") ] [] in
  status_code (UserViewSet.register (H := Plain.framework) 100 5 Sample.store request).1
    = HTTP_400_BAD_REQUEST ∧
  (UserViewSet.register (H := Plain.framework) 100 5 Sample.store request).2 = Sample.store ∧
  (UserViewSet.register (H := Plain.framework) 100 5 Sample.store request).1
    = passwords_do_not_match.
Proof.
  cbv zeta.
  pose proof (register_password_mismatch (H := Plain.framework) 100 5 Sample.store
                (Sample.anonymous [ ("username", RStr "ali"); ("email", RStr "ali@x.com");
                                    ("password", RStr "Pw1!"); ("password2", RStr "Pw2!") ] [])
                "Pw1!" "Pw2!"
                ltac:(vm_compute; reflexivity) ltac:(vm_compute; reflexivity)
                ltac:(vm_compute; discriminate)) as (Hstatus & Hstore & Hbody & _).
  split; [exact Hstatus|]. split; [exact Hstore|].
  apply Hbody. intros name Hin m.
  repeat (apply elem_of_cons in Hin as [->|Hin]; [vm_compute; discriminate|]).
  apply elem_of_nil in Hin. destruct Hin.
Defined.

(** C7 as it is stated fails: with two different passwords and a role that
    is no choice of [USER_TYPE_CHOICES], the answer is a 400 whose only key
    is [user_type]; there is nothing under [password], because [validate]
    does not run once a field has failed. *)
Lemma register_mismatch_behind_field_error :
  let request :=
    Sample.anonymous [ ("username", RStr "ali"); ("email", RStr "ali@x.com");
                       ("password", RStr "Pw1!"); ("password2", RStr "Pw2!");
                       ("user_type", RStr "alien") ] [] in
  let response := (UserViewSet.register (H := Plain.framework) 100 5 Sample.store request).1 in
  request_data request !! "password" = Some (RStr "Pw1!") ∧
  request_data request !! "password2" = Some (RStr "Pw2!") ∧
  status_code response = HTTP_400_BAD_REQUEST ∧
  json_keys (data response) = ["user_type"] ∧
  json_get "password" (data response) = None.
Proof. cbv zeta. split_and!; vm_compute; reflexivity. Qed.

(** The passwords are compared as the fields hand them on: two passwords
    that differ only in the white space around them match, and the account
    is created. *)
Lemma register_passwords_differing_in_white_space :
  let request :=
    Sample.anonymous [ ("username", RStr "ali"); ("email", RStr "ali@x.com");
                       ("password", RStr " Pw1! "); ("password2", RStr "Pw1!") ] [] in
  let outcome := UserViewSet.register (H := Plain.framework) 100 5 Sample.store request in
  status_code outcome.1 = HTTP_201_CREATED ∧
  (outcome.2 !! 5) ≫= (λ row, row !! "username") = Some (VStr "ali") ∧
  (outcome.2 !! 5) ≫= (λ row, row !! "password") = Some (VStr (Plain.hash "Pw1!")).
Proof. cbv zeta. split_and!; vm_compute; reflexivity. Qed.

(** * Profile update and picture upload *)

Section UpdateFacts.
Context `{Framework}.




End UpdateFacts.



Section UpdateClaims.
Context `{Framework}.




End UpdateClaims.




(** * Password change *)

Section PasswordFacts.
Context `{Framework}.






End PasswordFacts.

Section PasswordClaims.
Context `{Framework}.


End PasswordClaims.




(** A blank new password, given twice, is refused by the field, although
    the old password checks and the two new passwords are the same. *)
Lemma password_change_to_the_empty_password :
  let p := {| pk := 2; attrs := Sample.tourist |} in
  let request :=
    Sample.request_of 2 Sample.tourist
      [ ("old_password", RStr "TouristPass123!"); ("new_password", RStr "");
        ("new_password2", RStr "") ] in
  check_password (H := Plain.framework) p "TouristPass123!" = true ∧
  status_code (UserViewSet.password_change (H := Plain.framework) 7 Sample.store request).1
    = HTTP_400_BAD_REQUEST ∧
  json_keys (data (UserViewSet.password_change (H := Plain.framework) 7 Sample.store
                     request).1) = ["new_password"; "new_password2"].
Proof. cbv zeta. split_and!; vm_compute; reflexivity. Qed.

(** * Further properties of the views *)

(** ** Registration *)


Section RegisterEffects.
Context `{Framework}.















End RegisterEffects.

(** ** Login *)

Section LoginEffects.
Context `{Framework}.



End LoginEffects.


(** ** The profile *)

Section ProfileEffects.
Context `{Framework}.










End ProfileEffects.

(** ** Password change and picture upload *)

Section WriteEffects.
Context `{Framework}.






End WriteEffects.


(** ** Provider information *)

Section ProviderEffects.
Context `{Framework}.




End ProviderEffects.


(** ** Deletion *)




(** ** The roles of the model *)


(** ** The properties above on the sample table *)
















